(** * ScoreMJ: tiered, score-annotated merge

    Shallow embedding of [scored_merge] as written in
    [src/python/pandas.py] and [src/python/pyspark.py], together with the
    parts of the two table engines the function calls into. *)

From Stdlib Require Import List Ascii String ZArith Bool Lia Sorted.
Import ListNotations.
Local Open Scope string_scope.
Local Open Scope list_scope.
Local Open Scope Z_scope.

(** ** Data model *)

(** A scalar stored in a table cell: an integer, a float or a string.
    [SFloat z] is the float of integral value [z], the only floats the
    program makes itself (pandas turns an integer column into a float column
    when the column receives missing cells). *)
Inductive scalar : Type :=
| SInt (z : Z)
| SFloat (z : Z)
| SStr (s : string).

(** A cell is a scalar or null ([None], [NaN] in pandas; [NULL] in Spark). *)
Definition cell : Type := option scalar.

Definition row : Type := list cell.

(** A data frame: ordered column names and rows aligned with them by
    position. *)
Record DataFrame : Type := mkDF { columns : list string; rows : list row }.

(** Exceptions the two programs can end with. [ValueError], [KeyError] and
    [IndexError] are Python's; [MergeError] and [InvalidIndexError] are
    pandas's; [AnalysisException] is Spark's. *)
Inductive exn : Type :=
| ValueError
| KeyError
| IndexError
| MergeError
| InvalidIndexError
| AnalysisException.

Inductive result (A : Type) : Type :=
| Ok (a : A)
| Raise (e : exn).
Arguments Ok {A} a.
Arguments Raise {A} e.

Definition bind {A B : Type} (m : result A) (k : A -> result B) : result B :=
  match m with
  | Ok a => k a
  | Raise e => Raise e
  end.

Notation "x <- m ;; k" := (bind m (fun x => k))
  (at level 61, m at next level, right associativity).

(** A [for] loop whose body can raise: the bodies run in order and the first
    exception ends the loop. *)
Fixpoint for_each {A B : Type} (body : A -> result B) (l : list A)
  : result (list B) :=
  match l with
  | [] => Ok []
  | a :: l' => b <- body a ;; bs <- for_each body l' ;; Ok (b :: bs)
  end.

(** ** Python built-ins *)

(** [range(start, stop, -1)]: [start, start-1, ...], stopping before [stop]. *)
Definition py_range_down (start stop : Z) : list Z :=
  map (fun k => start - Z.of_nat k) (seq 0 (Z.to_nat (start - stop))).

(** [l[:i]]: the first [i] elements; a negative [i] counts from the end. *)
Definition py_prefix {A : Type} (i : Z) (l : list A) : list A :=
  if i <? 0 then firstn (Z.to_nat (Z.of_nat (List.length l) + i)) l
  else firstn (Z.to_nat i) l.

(** A [dict] of key columns, in insertion order. *)
Definition merge_keys_t : Type := list (string * string).

Definition dict_keys (d : merge_keys_t) : list string := map fst d.
Definition dict_values (d : merge_keys_t) : list string := map snd d.

(** ** Cells, columns and rows *)

(** Equality of two scalars as values: an integer equals the float of the
    same value; a number never equals a string. *)
Definition scalar_eqb (a b : scalar) : bool :=
  match a, b with
  | SInt x, SInt y => x =? y
  | SInt x, SFloat y => x =? y
  | SFloat x, SInt y => x =? y
  | SFloat x, SFloat y => x =? y
  | SStr x, SStr y => String.eqb x y
  | _, _ => false
  end.

Definition mem (c : string) (l : list string) : bool :=
  existsb (String.eqb c) l.

Definition count_col (c : string) (l : list string) : nat :=
  List.length (filter (String.eqb c) l).

Fixpoint col_index (c : string) (cols : list string) : option nat :=
  match cols with
  | [] => None
  | c' :: cols' =>
      if String.eqb c c' then Some O
      else option_map S (col_index c cols')
  end.

(** The cell of [r] under the (first) column named [c]; null if absent. *)
Definition cell_at (cols : list string) (r : row) (c : string) : cell :=
  match col_index c cols with
  | Some k => nth k r None
  | None => None
  end.

(** Positions of [cols] kept by a predicate on names, and the same selection
    applied to a row. *)
Fixpoint select {A : Type} (keep : string -> bool) (cols : list string)
  (xs : list A) (d : A) : list A :=
  match cols with
  | [] => []
  | c :: cols' =>
      let rest := select keep cols' (tl xs) d in
      if keep c then hd d xs :: rest else rest
  end.

Definition drop_columns (drop : list string) (df : DataFrame) : DataFrame :=
  let keep c := negb (mem c drop) in
  mkDF (filter keep (columns df))
       (map (fun r => select keep (columns df) r None) (rows df)).

(** Assigning a constant column: every existing column of that name is
    overwritten in place, otherwise the column is appended. *)
Fixpoint overwrite (name : string) (v : cell) (cols : list string) (r : row)
  : row :=
  match cols with
  | [] => []
  | c :: cols' =>
      (if String.eqb c name then v else hd None r)
        :: overwrite name v cols' (tl r)
  end.

Fixpoint pad (cols : list string) (r : row) : row :=
  match cols with
  | [] => []
  | _ :: cols' => hd None r :: pad cols' (tl r)
  end.

Definition set_column (name : string) (v : cell) (df : DataFrame)
  : DataFrame :=
  if mem name (columns df)
  then mkDF (columns df) (map (overwrite name v (columns df)) (rows df))
  else mkDF (columns df ++ [name])
            (map (fun r => pad (columns df) r ++ [v]) (rows df)).

(** A row re-read under another column order ([from] names its cells, [to]
    is the order wanted); a column missing in [from] reads null. *)
Definition reindex (from to : list string) (r : row) : row :=
  map (cell_at from r) to.

(** [Index.duplicated()]: marks every occurrence of a label after its
    first. *)
Fixpoint duplicated_from (seen l : list string) : list bool :=
  match l with
  | [] => []
  | c :: l' => mem c seen :: duplicated_from (c :: seen) l'
  end.

Definition duplicated (l : list string) : list bool := duplicated_from [] l.

Definition is_unique (l : list string) : bool :=
  negb (existsb (fun b => b) (duplicated l)).

(** The cells a frame holds under a column name. *)
Definition column_cells (df : DataFrame) (c : string) : list cell :=
  map (fun r => cell_at (columns df) r c) (rows df).


(** The row-wise effect of [set_column]. *)
Definition set_column_row (name : string) (v : cell) (cols : list string)
  (r : row) : row :=
  if mem name cols then overwrite name v cols r else pad cols r ++ [v].

(** The key pairs tier [i] joins on: [zip(left_keys[:i], right_keys[:i])]. *)
Definition tier_keys (merge_keys : merge_keys_t) (i : Z)
  : list (string * string) :=
  combine (py_prefix i (dict_keys merge_keys))
          (py_prefix i (dict_values merge_keys)).

Definition string_list_eqb (a b : list string) : bool :=
  (Nat.eqb (List.length a) (List.length b))
  && forallb (fun p => String.eqb (fst p) (snd p)) (combine a b).

(** ** The pandas variant ([src/python/pandas.py])

    [pd.merge] and [pd.concat] are modelled as pandas 2.0 documents and
    implements them, for frames with a default index. Cells are compared by
    value. Of the dtypes only the integer column turning into a float
    column in [pd.concat] is modelled; the check [pd.merge] makes on the
    dtypes of paired key columns (a number column against a string column
    is a [ValueError]) is not. *)

Module Pandas.

(** [pd.merge] compares key cells by value; unlike SQL it matches a null
    key with a null key (pandas documents this for [merge]). *)
Definition key_eqb (a b : cell) : bool :=
  match a, b with
  | None, None => true
  | Some x, Some y => scalar_eqb x y
  | _, _ => false
  end.

(** Resolving a key label in a frame: [KeyError] when no column has the
    name, [ValueError] when the label is not unique. *)
Definition get_label (df : DataFrame) (k : string) : result unit :=
  match count_col k (columns df) with
  | O => Raise KeyError
  | S O => Ok tt
  | _ => Raise ValueError
  end.

(** The key pairs are resolved in order, the right label of a pair before
    the left one. *)
Fixpoint get_merge_keys (left right : DataFrame)
  (on : list (string * string)) : result unit :=
  match on with
  | [] => Ok tt
  | (lk, rk) :: on' =>
      _ <- get_label right rk ;;
      _ <- get_label left lk ;;
      get_merge_keys left right on'
  end.

Definition keys_agree (left right : DataFrame)
  (on : list (string * string)) (p : row * row) : bool :=
  forallb (fun k => key_eqb (cell_at (columns left) (fst p) (fst k))
                            (cell_at (columns right) (snd p) (snd k))) on.

(** The (left row, right row) pairs an inner merge keeps. The engine
    chooses the order of the rows it returns; they are listed here left row
    by left row and, for one left row, right row by right row. *)
Definition merge_pairs (left right : DataFrame)
  (on : list (string * string)) : list (row * row) :=
  filter (keys_agree left right on) (list_prod (rows left) (rows right)).

(** A key pair with one name on both sides yields one output column: the
    right copy is dropped, or the left copy when [left] has no rows. *)
Definition key_drops (left : DataFrame) (on : list (string * string))
  : list string * list string :=
  let same := map fst (filter (fun k => String.eqb (fst k) (snd k)) on) in
  match rows left with
  | [] => (same, [])
  | _ :: _ => ([], same)
  end.

Definition caused_dups (orig labels : list string) : bool :=
  existsb (fun p => fst p && negb (snd p))
          (combine (duplicated labels) (duplicated orig)).

(** Column names present on both sides get the two suffixes (pandas 2:
    suffixes that create a duplicate name are a [MergeError]). *)
Definition items_overlap_with_suffix (lcols rcols suffixes : list string)
  : result (list string * list string) :=
  let to_rename := filter (fun c => mem c rcols) lcols in
  match to_rename with
  | [] => Ok (lcols, rcols)
  | _ :: _ =>
      match suffixes with
      | [lsuffix; rsuffix] =>
          if String.eqb lsuffix "" && String.eqb rsuffix ""
          then Raise ValueError
          else
            let renamer s x :=
              if mem x to_rename then String.append x s else x in
            let llabels := map (renamer lsuffix) lcols in
            let rlabels := map (renamer rsuffix) rcols in
            if caused_dups lcols llabels || caused_dups rcols rlabels
            then Raise MergeError
            else Ok (llabels, rlabels)
      | _ => Raise ValueError
      end
  end.

(** [pd.merge(left, right, left_on=.., right_on=.., how="inner",
    suffixes=..)]; [on] is [zip(left_on, right_on)]. An empty key list is
    rejected when the join indexers are built. *)
Definition merge (left right : DataFrame) (on : list (string * string))
  (suffixes : list string) : result DataFrame :=
  _ <- get_merge_keys left right on ;;
  match on with
  | [] => Raise IndexError
  | _ :: _ =>
      let (ldrop, rdrop) := key_drops left on in
      let keepl c := negb (mem c ldrop) in
      let keepr c := negb (mem c rdrop) in
      labels <- items_overlap_with_suffix
                  (filter keepl (columns left))
                  (filter keepr (columns right)) suffixes ;;
      Ok (mkDF (fst labels ++ snd labels)
               (map (fun p => select keepl (columns left) (fst p) None
                                ++ select keepr (columns right) (snd p) None)
                    (merge_pairs left right on)))
  end.

Definition union_columns (objs : list DataFrame) : list string :=
  fold_left (fun acc df =>
               acc ++ filter (fun c => negb (mem c acc)) (columns df))
            objs [].

Definition is_numeric (v : cell) : bool :=
  match v with
  | Some (SStr _) => false
  | _ => true
  end.

(** A column of the result that some frame lacks receives missing cells. A
    column holding numbers only cannot stay an integer column then: pandas
    makes it [float64]. A column holding a string is an [object] column and
    keeps its cells. *)
Definition upcasts (objs : list DataFrame) (c : string) : bool :=
  existsb (fun df => negb (mem c (columns df))) objs
  && forallb (fun df => forallb is_numeric (column_cells df c)) objs.

Definition to_float (v : cell) : cell :=
  match v with
  | Some (SInt z) => Some (SFloat z)
  | _ => v
  end.

(** A row of [df] as it stands in the concatenation on [cols]: read under
    [cols], null where [df] has no such column, integers made floats in the
    columns that pandas upcasts. *)
Definition aligned_row (objs : list DataFrame) (cols : list string)
  (df : DataFrame) (r : row) : row :=
  map (fun c => let v := cell_at (columns df) r c in
                if upcasts objs c then to_float v else v) cols.

(** [pd.concat(objs, ignore_index=True)]: the rows of the frames in order;
    frames with different columns are aligned on the union of the columns
    (missing cells null), which needs unique column names. *)
Definition concat (objs : list DataFrame) : result DataFrame :=
  match objs with
  | [] => Raise ValueError
  | df0 :: _ =>
      if forallb (fun df => string_list_eqb (columns df) (columns df0)) objs
      then Ok (mkDF (columns df0) (flat_map rows objs))
      else if forallb (fun df => is_unique (columns df)) objs
      then
        let cols := union_columns objs in
        Ok (mkDF cols
              (flat_map (fun df => map (aligned_row objs cols df) (rows df))
                        objs))
      else Raise InvalidIndexError
  end.

(** The body of the loop of [scored_merge] at tier [i]. *)
Definition tier (left right : DataFrame) (merge_keys : merge_keys_t)
  (suffix : list string) (i : Z) : result DataFrame :=
  let left_keys := dict_keys merge_keys in
  let right_keys := dict_values merge_keys in
  partial_merge <- merge left right
                     (combine (py_prefix i left_keys) (py_prefix i right_keys))
                     suffix ;;
  Ok (set_column "merge_score" (Some (SInt i)) partial_merge).

Definition scored_merge (left right : DataFrame) (merge_keys : merge_keys_t)
  (suffix : list string) (min_score : Z) : result DataFrame :=
  let n_keys := Z.of_nat (List.length merge_keys) in
  merge_result <- for_each (tier left right merge_keys suffix)
                    (py_range_down n_keys min_score) ;;
  concat merge_result.

(** The cells [merge] writes for a matched pair, and the column names it
    writes them under. *)
Definition merged_row (left right : DataFrame) (on : list (string * string))
  (p : row * row) : row :=
  let (ldrop, rdrop) := key_drops left on in
  select (fun c => negb (mem c ldrop)) (columns left) (fst p) None
  ++ select (fun c => negb (mem c rdrop)) (columns right) (snd p) None.

Definition merged_labels (left right : DataFrame)
  (on : list (string * string)) (suffixes : list string)
  : result (list string) :=
  let (ldrop, rdrop) := key_drops left on in
  labels <- items_overlap_with_suffix
              (filter (fun c => negb (mem c ldrop)) (columns left))
              (filter (fun c => negb (mem c rdrop)) (columns right))
              suffixes ;;
  Ok (fst labels ++ snd labels).

(** The row tier [i] emits for a matched pair: the merged cells with the
    score written under [merge_score]. *)
Definition tier_row (left right : DataFrame) (merge_keys : merge_keys_t)
  (suffix : list string) (i : Z) (p : row * row) : row :=
  match merged_labels left right (tier_keys merge_keys i) suffix with
  | Ok labels =>
      set_column_row "merge_score" (Some (SInt i)) labels
        (merged_row left right (tier_keys merge_keys i) p)
  | Raise _ => []
  end.

End Pandas.

(** ** The PySpark variant ([src/python/pyspark.py])

    The [DataFrame] methods are modelled as Spark 3 analyses them: a plan
    that does not resolve raises [AnalysisException] when the frame is
    built. Column names are compared exactly, as in a session with
    [spark.sql.caseSensitive] set, and a key is taken as the plain name of
    a column; a default session also resolves a name written in another
    letter case and reads dots and backticks in it as syntax. Column types
    and the casts Spark inserts between them are not modelled, and [left]
    and [right] are distinct frames. *)

Module PySpark.

(** SQL equality, the [==] of two [Column]s: null equals nothing. *)
Definition key_eqb (a b : cell) : bool :=
  match a, b with
  | Some x, Some y => scalar_eqb x y
  | _, _ => false
  end.

(** [df[name]]: the column must resolve, and to one column only. *)
Definition getitem (df : DataFrame) (k : string) : result unit :=
  match count_col k (columns df) with
  | S O => Ok tt
  | _ => Raise AnalysisException
  end.

(** [[left[kl] == right[kr] for kl, kr in zip(..)]]. *)
Fixpoint join_conditions (left right : DataFrame)
  (on : list (string * string)) : result unit :=
  match on with
  | [] => Ok tt
  | (kl, kr) :: on' =>
      _ <- getitem left kl ;;
      _ <- getitem right kr ;;
      join_conditions left right on'
  end.

Definition keys_agree (left right : DataFrame)
  (on : list (string * string)) (p : row * row) : bool :=
  forallb (fun k => key_eqb (cell_at (columns left) (fst p) (fst k))
                            (cell_at (columns right) (snd p) (snd k))) on.

(** The row pairs of the inner join. Spark fixes no row order; the pairs
    are enumerated left row by left row. *)
Definition join_pairs (left right : DataFrame)
  (on : list (string * string)) : list (row * row) :=
  filter (keys_agree left right on) (list_prod (rows left) (rows right)).

(** [left.join(right, [conditions], how='inner')]: all columns of [left]
    then all columns of [right], none renamed. [join] looks at [on[0]], so
    an empty condition list is an [IndexError]. *)
Definition join (left right : DataFrame) (on : list (string * string))
  : result DataFrame :=
  match on with
  | [] => Raise IndexError
  | _ :: _ =>
      Ok (mkDF (columns left ++ columns right)
            (map (fun p => pad (columns left) (fst p)
                             ++ pad (columns right) (snd p))
                 (join_pairs left right on)))
  end.

(** [withColumn(name, lit(v))]. *)
Definition withColumn (name : string) (v : cell) (df : DataFrame)
  : DataFrame := set_column name v df.

(** [withColumnRenamed(existing, new)]: nothing happens when no column is
    named [existing]. *)
Definition withColumnRenamed (existing new : string) (df : DataFrame)
  : DataFrame :=
  mkDF (map (fun c => if String.eqb c existing then new else c)
            (columns df))
       (rows df).

(** [set(left.columns).intersection(set(right.columns))], each name once.
    Python leaves the iteration order of a set open; the names are visited
    here in an order read off [left.columns]. *)
Definition common_columns (left right : DataFrame) : list string :=
  nodup string_dec (filter (fun c => mem c (columns right)) (columns left)).

(** The inner [for col in ...] loop of a tier. *)
Fixpoint rename_conflicts (cols current_left_keys current_right_keys
                             suffix : list string)
  (partial_merge : DataFrame) : result DataFrame :=
  match cols with
  | [] => Ok partial_merge
  | col :: cols' =>
      if negb (mem col current_left_keys)
         && negb (mem col current_right_keys)
      then
        match suffix with
        | [] => Raise IndexError
        | s0 :: _ =>
            rename_conflicts cols' current_left_keys current_right_keys
              suffix
              (withColumnRenamed (String.append col s0) col partial_merge)
        end
      else rename_conflicts cols' current_left_keys current_right_keys
             suffix partial_merge
  end.

(** [a.unionByName(b)]: both sides need unique column names and the same
    names; the rows of [b] follow those of [a], read in [a]'s order. *)
Definition unionByName (a b : DataFrame) : result DataFrame :=
  if is_unique (columns a) && is_unique (columns b)
     && Nat.eqb (List.length (columns a)) (List.length (columns b))
     && forallb (fun c => mem c (columns b)) (columns a)
  then Ok (mkDF (columns a)
             (rows a ++ map (reindex (columns b) (columns a)) (rows b)))
  else Raise AnalysisException.

Fixpoint union_all (final_result : DataFrame) (dfs : list DataFrame)
  : result DataFrame :=
  match dfs with
  | [] => Ok final_result
  | df :: dfs' =>
      final_result' <- unionByName final_result df ;;
      union_all final_result' dfs'
  end.

(** [left.sparkSession.createDataFrame([], left.schema)]. *)
Definition createDataFrame_empty (schema : list string) : DataFrame :=
  mkDF schema [].

(** The body of the loop of [scored_merge] at tier [i]. *)
Definition tier (left right : DataFrame) (merge_keys : merge_keys_t)
  (suffix : list string) (i : Z) : result DataFrame :=
  let left_keys := dict_keys merge_keys in
  let right_keys := dict_values merge_keys in
  let current_left_keys := py_prefix i left_keys in
  let current_right_keys := py_prefix i right_keys in
  let on := combine current_left_keys current_right_keys in
  _ <- join_conditions left right on ;;
  partial_merge <- join left right on ;;
  let partial_merge := withColumn "merge_score" (Some (SInt i)) partial_merge in
  rename_conflicts (common_columns left right)
    current_left_keys current_right_keys suffix partial_merge.

Definition scored_merge (left right : DataFrame) (merge_keys : merge_keys_t)
  (suffix : list string) (min_score : Z) : result DataFrame :=
  let n_keys := Z.of_nat (List.length merge_keys) in
  merge_results <- for_each (tier left right merge_keys suffix)
                     (py_range_down n_keys (min_score - 1)) ;;
  match merge_results with
  | [] => Ok (createDataFrame_empty (columns left))
  | first :: rest => union_all first rest
  end.

(** The row tier [i] emits for a matched pair: the cells of the left row,
    those of the right row, and the score written under [merge_score]. *)
Definition tier_row (left right : DataFrame) (i : Z) (p : row * row) : row :=
  set_column_row "merge_score" (Some (SInt i))
    (columns left ++ columns right)
    (pad (columns left) (fst p) ++ pad (columns right) (snd p)).

End PySpark.

(** ** Examples of the docstrings *)

Definition df1 : DataFrame :=
  mkDF ["id"; "code"; "value"]
       [ [Some (SInt 1); Some (SStr "A"); Some (SInt 100)];
         [Some (SInt 2); Some (SStr "B"); Some (SInt 200)] ].

Definition df2 : DataFrame :=
  mkDF ["id"; "code"; "category"]
       [ [Some (SInt 1); Some (SStr "A"); Some (SStr "X")];
         [Some (SInt 2); Some (SStr "C"); Some (SStr "Y")] ].

Definition id_code : merge_keys_t := [("id", "id"); ("code", "code")].

(** The same tables with column names that differ between the sides. *)
Definition df1_l : DataFrame := mkDF ["lid"; "lcode"; "value"] (rows df1).
Definition df2_r : DataFrame := mkDF ["rid"; "rcode"; "category"] (rows df2).
Definition lid_rid : merge_keys_t := [("lid", "rid"); ("lcode", "rcode")].

(** One row per side with a null first key. *)
Definition null_left : DataFrame :=
  mkDF ["k1"; "k2"; "v"] [ [None; Some (SInt 1); Some (SInt 10)] ].
Definition null_right : DataFrame :=
  mkDF ["k1"; "k2"; "w"] [ [None; Some (SInt 1); Some (SInt 20)] ].
Definition k1_k2 : merge_keys_t := [("k1", "k1"); ("k2", "k2")].

(** Two tables sharing the key [id] and the non-key column [v]. *)
Definition left_v : DataFrame :=
  mkDF ["id"; "v"] [ [Some (SInt 1); Some (SInt 10)] ].
Definition right_v : DataFrame :=
  mkDF ["id"; "v"] [ [Some (SInt 1); Some (SInt 20)] ].
Definition right_v_same : DataFrame :=
  mkDF ["id"; "v"] [ [Some (SInt 1); Some (SInt 10)] ].

(** A left table without rows. *)
Definition empty_left : DataFrame := mkDF ["id"; "value"] [].













(** ** Facts about the Python built-ins *)

Lemma py_range_down_nil (start stop : Z) :
  start <= stop -> py_range_down start stop = [].
Proof.
  intros H. unfold py_range_down.
  replace (Z.to_nat (start - stop)) with O by lia. reflexivity.
Qed.

Lemma py_range_down_cons (start stop : Z) :
  stop < start ->
  py_range_down start stop = start :: py_range_down (start - 1) stop.
Proof.
  intros H. unfold py_range_down.
  replace (Z.to_nat (start - stop)) with (S (Z.to_nat (start - 1 - stop)))
    by lia.
  cbn [seq map]. f_equal.
  - lia.
  - rewrite <- seq_shift, map_map. apply map_ext. intros k. lia.
Qed.

Lemma py_range_down_In (start stop i : Z) :
  In i (py_range_down start stop) <-> stop < i <= start.
Proof.
  unfold py_range_down. rewrite in_map_iff. split.
  - intros [k [Hk Hin]]. apply in_seq in Hin. lia.
  - intros H. exists (Z.to_nat (start - i)). split; [lia|].
    apply in_seq. lia.
Qed.







Lemma for_each_Forall2 {A B : Type} (body : A -> result B) (l : list A)
  (bs : list B) :
  for_each body l = Ok bs -> Forall2 (fun a b => body a = Ok b) l bs.
Proof.
  revert bs. induction l as [|a l IH]; cbn; intros bs H.
  - injection H as <-. constructor.
  - destruct (body a) as [b|e] eqn:Hb; cbn in H; [|discriminate].
    destruct (for_each body l) as [bs'|e] eqn:Hl; cbn in H; [|discriminate].
    injection H as <-. constructor; auto.
Qed.

(** ** The tier loops *)

(** The pandas loop [range(n_keys, min_score, -1)] never reaches
    [min_score]. *)
Lemma pandas_tiers_exclude_min_score (n min_score : Z) :
  ~ In min_score (py_range_down n min_score).
Proof. rewrite py_range_down_In. lia. Qed.

(** The PySpark loop [range(n_keys, min_score - 1, -1)] visits exactly
    [min_score .. n]. *)
Lemma pyspark_tiers_inclusive (n min_score i : Z) :
  In i (py_range_down n (min_score - 1)) <-> min_score <= i <= n.
Proof. rewrite py_range_down_In. lia. Qed.

(** With [min_score >= n] the pandas loop body never runs and [pd.concat]
    receives an empty list. *)
Lemma pandas_no_tiers (left right : DataFrame) (merge_keys : merge_keys_t)
  (suffix : list string) (min_score : Z) :
  Z.of_nat (List.length merge_keys) <= min_score ->
  Pandas.scored_merge left right merge_keys suffix min_score
  = Raise ValueError.
Proof.
  intros H. unfold Pandas.scored_merge.
  rewrite py_range_down_nil by lia. reflexivity.
Qed.

(** With [min_score > n] the PySpark loop body never runs. *)
Lemma pyspark_no_tiers (left right : DataFrame) (merge_keys : merge_keys_t)
  (suffix : list string) (min_score : Z) :
  Z.of_nat (List.length merge_keys) < min_score ->
  PySpark.scored_merge left right merge_keys suffix min_score
  = Ok (mkDF (columns left) []).
Proof.
  intros H. unfold PySpark.scored_merge.
  rewrite py_range_down_nil by lia. reflexivity.
Qed.

(** ** Threshold handling *)

(** C1: on the example of the docstring ([n = 2], [min_score = 1]) the
    tier-1 join is non-empty, yet the pandas [scored_merge] returns the
    tier-2 batch alone: its loop stops before [min_score], so no batch with
    score [min_score] is produced. *)
Theorem pandas_scored_merge_omits_min_score_tier :
  (exists b, Pandas.tier df1 df2 id_code ["left"; "rigth"] 1 = Ok b
             /\ rows b <> [])
  /\ Pandas.scored_merge df1 df2 id_code ["left"; "rigth"] 1
     = Ok (mkDF ["id"; "code"; "value"; "category"; "merge_score"]
             [ [Some (SInt 1); Some (SStr "A"); Some (SInt 100);
                Some (SStr "X"); Some (SInt 2)] ]).
Proof.
  split.
  - eexists. split; [vm_compute; reflexivity | discriminate].
  - vm_compute. reflexivity.
Qed.

(** C2: with [min_score = n] the pandas [scored_merge] runs no tier and
    raises [ValueError] from [pd.concat], whatever the inputs, instead of
    returning the inner join on all keys. *)
Theorem pandas_scored_merge_min_score_n_raises (left right : DataFrame)
  (merge_keys : merge_keys_t) (suffix : list string) :
  Pandas.scored_merge left right merge_keys suffix
    (Z.of_nat (List.length merge_keys)) = Raise ValueError.
Proof. apply pandas_no_tiers. lia. Qed.

(** For comparison, the PySpark variant with [min_score = n] runs the one
    tier [n]. *)
Lemma pyspark_scored_merge_min_score_n (left right : DataFrame)
  (merge_keys : merge_keys_t) (suffix : list string) :
  PySpark.scored_merge left right merge_keys suffix
    (Z.of_nat (List.length merge_keys))
  = PySpark.tier left right merge_keys suffix
      (Z.of_nat (List.length merge_keys)).
Proof.
  unfold PySpark.scored_merge.
  rewrite py_range_down_cons by lia.
  rewrite py_range_down_nil by lia. cbn.
  destruct (PySpark.tier _ _ _ _ _); reflexivity.
Qed.

(** C10: when [min_score > len(merge_keys)] the PySpark loop runs zero
    times and the function returns an empty frame with the schema of
    [left], without raising. *)
Theorem pyspark_scored_merge_zero_tiers (left right : DataFrame)
  (merge_keys : merge_keys_t) (suffix : list string) (min_score : Z) :
  Z.of_nat (List.length merge_keys) < min_score ->
  PySpark.scored_merge left right merge_keys suffix min_score
  = Ok (PySpark.createDataFrame_empty (columns left)).
Proof. intros H. now apply pyspark_no_tiers. Qed.

Lemma pyspark_scored_merge_zero_tiers_witness :
  Z.of_nat (List.length id_code) < 3
  /\ PySpark.scored_merge df1 df2 id_code ["_left"; "_right"] 3
     = Ok (mkDF ["id"; "code"; "value"] []).
Proof.
  split; [cbn; lia|].
  apply (pyspark_scored_merge_zero_tiers df1 df2 id_code
           ["_left"; "_right"] 3).
  cbn. lia.
Defined.

(** ** Null keys *)

(** In the PySpark variant a pair with a null in a key column used by the
    tier is not joined. *)
Lemma pyspark_null_key_never_matches (left right : DataFrame)
  (on : list (string * string)) (p : row * row) (k : string * string) :
  In k on ->
  cell_at (columns left) (fst p) (fst k) = None
  \/ cell_at (columns right) (snd p) (snd k) = None ->
  ~ In p (PySpark.join_pairs left right on).
Proof.
  intros Hk Hnull Hin. unfold PySpark.join_pairs in Hin.
  apply filter_In in Hin. destruct Hin as [_ Hagree].
  unfold PySpark.keys_agree in Hagree.
  rewrite forallb_forall in Hagree. specialize (Hagree k Hk).
  destruct Hnull as [H|H]; rewrite H in Hagree.
  - discriminate.
  - destruct (cell_at (columns left) (fst p) (fst k)); discriminate.
Qed.

(** C3: in the pandas variant a left row and a right row whose first key is
    null on both sides are joined at tier 2, which uses that key: [pd.merge]
    matches null keys with each other. *)
Theorem pandas_scored_merge_matches_null_keys :
  cell_at (columns null_left) [None; Some (SInt 1); Some (SInt 10)] "k1"
  = None
  /\ Pandas.scored_merge null_left null_right k1_k2 ["left"; "rigth"] 1
     = Ok (mkDF ["k1"; "k2"; "v"; "w"; "merge_score"]
             [ [None; Some (SInt 1); Some (SInt 10); Some (SInt 20);
                Some (SInt 2)] ]).
Proof. split; vm_compute; reflexivity. Qed.

(** ** Column collisions *)

(** C4: in the PySpark variant the non-key column [v], present on both
    sides, reaches the output twice under its own name: neither occurrence
    gets a suffix. *)
Theorem pyspark_scored_merge_adds_no_suffix :
  PySpark.scored_merge left_v right_v [("id", "id")] ["_left"; "_right"] 1
  = Ok (mkDF ["id"; "v"; "id"; "v"; "merge_score"]
          [ [Some (SInt 1); Some (SInt 10); Some (SInt 1); Some (SInt 20);
             Some (SInt 1)] ]).
Proof. vm_compute. reflexivity. Qed.

(** On the same input [pd.merge] suffixes both occurrences. *)
Example pandas_merge_suffixes_both_sides :
  Pandas.tier left_v right_v [("id", "id")] ["_left"; "_right"] 1
  = Ok (mkDF ["id"; "v_left"; "v_right"; "merge_score"]
          [ [Some (SInt 1); Some (SInt 10); Some (SInt 20); Some (SInt 1)] ]).
Proof. vm_compute. reflexivity. Qed.

(** ** Empty inputs *)

(** C6: with an empty [left], one key pair and [min_score = 1] the pandas
    [scored_merge] raises [ValueError] instead of returning an empty
    frame. *)
Theorem pandas_scored_merge_empty_left_raises :
  Pandas.scored_merge empty_left df2 [("id", "id")] ["_left"; "_right"] 1
  = Raise ValueError.
Proof. vm_compute. reflexivity. Qed.

(** ** The two variants compared *)

(** C7: on equal inputs with [n = 2] and [min_score = 1] the PySpark
    variant returns the tier-2 and the tier-1 batches, the pandas variant
    the tier-2 batch only. *)
Theorem variants_differ_on_min_score_tier :
  Pandas.scored_merge df1_l df2_r lid_rid ["_left"; "_right"] 1
  = Ok (mkDF ["lid"; "lcode"; "value"; "rid"; "rcode"; "category";
              "merge_score"]
          [ [Some (SInt 1); Some (SStr "A"); Some (SInt 100);
             Some (SInt 1); Some (SStr "A"); Some (SStr "X");
             Some (SInt 2)] ])
  /\ PySpark.scored_merge df1_l df2_r lid_rid ["_left"; "_right"] 1
     = Ok (mkDF ["lid"; "lcode"; "value"; "rid"; "rcode"; "category";
                 "merge_score"]
             [ [Some (SInt 1); Some (SStr "A"); Some (SInt 100);
                Some (SInt 1); Some (SStr "A"); Some (SStr "X");
                Some (SInt 2)];
               [Some (SInt 1); Some (SStr "A"); Some (SInt 100);
                Some (SInt 1); Some (SStr "A"); Some (SStr "X");
                Some (SInt 1)];
               [Some (SInt 2); Some (SStr "B"); Some (SInt 200);
                Some (SInt 2); Some (SStr "C"); Some (SStr "Y");
                Some (SInt 1)] ]).
Proof. split; vm_compute; reflexivity. Qed.

(** ** Monotonic relaxation *)

Lemma firstn_incl_succ {A : Type} (k : nat) (l : list A) :
  incl (firstn k l) (firstn (S k) l).
Proof.
  revert l. induction k as [|k IH]; intros l.
  - intros x [].
  - destruct l as [|a l]; [intros x []|].
    change (firstn (S (S k)) (a :: l)) with (a :: firstn (S k) l).
    change (firstn (S k) (a :: l)) with (a :: firstn k l).
    intros x [Hx|Hx]; [now left | right; now apply IH].
Qed.

(** The key pairs of tier [i] are among those of tier [i + 1]. *)
Lemma tier_keys_incl (merge_keys : merge_keys_t) (i : Z) :
  0 <= i ->
  incl (combine (py_prefix i (dict_keys merge_keys))
                (py_prefix i (dict_values merge_keys)))
       (combine (py_prefix (i + 1) (dict_keys merge_keys))
                (py_prefix (i + 1) (dict_values merge_keys))).
Proof.
  intros Hi. unfold py_prefix.
  destruct (Z.ltb_spec i 0) as [E|_]; [lia|].
  destruct (Z.ltb_spec (i + 1) 0) as [E|_]; [lia|].
  rewrite <- !combine_firstn.
  replace (Z.to_nat (i + 1)) with (S (Z.to_nat i)) by lia.
  apply firstn_incl_succ.
Qed.

Lemma forallb_incl {A : Type} (f : A -> bool) (a b : list A) :
  incl a b -> forallb f b = true -> forallb f a = true.
Proof.
  intros Hincl Hb. rewrite forallb_forall in *. auto.
Qed.







(** The rows of a tier's batch are built from the matched pairs, one row
    per pair and in their order. *)
Lemma pandas_tier_rows (left right : DataFrame) (merge_keys : merge_keys_t)
  (suffix : list string) (i : Z) (b : DataFrame) :
  Pandas.tier left right merge_keys suffix i = Ok b ->
  exists f,
    rows b = map f (Pandas.merge_pairs left right
                      (combine (py_prefix i (dict_keys merge_keys))
                               (py_prefix i (dict_values merge_keys)))).
Proof.
  unfold Pandas.tier, Pandas.merge.
  set (on := combine _ _).
  destruct (Pandas.get_merge_keys left right on); cbn; [|discriminate].
  destruct on as [|k on'] eqn:Hon; [discriminate|].
  destruct (Pandas.key_drops left (k :: on')) as [ldrop rdrop].
  destruct (Pandas.items_overlap_with_suffix _ _ _) as [labels|]; cbn;
    [|discriminate].
  intros H. injection H as <-. unfold set_column.
  destruct (mem _ _); cbn; rewrite map_map; eexists; reflexivity.
Qed.

Lemma pyspark_rename_conflicts_rows (cols cl cr suffix : list string)
  (pm pm' : DataFrame) :
  PySpark.rename_conflicts cols cl cr suffix pm = Ok pm' ->
  rows pm' = rows pm.
Proof.
  revert pm. induction cols as [|c cols IH]; cbn; intros pm H.
  - now injection H as <-.
  - destruct (negb (mem c cl) && negb (mem c cr)).
    + destruct suffix as [|s0 ?]; [discriminate|].
      apply IH in H. exact H.
    + now apply IH.
Qed.

Lemma pyspark_tier_rows (left right : DataFrame) (merge_keys : merge_keys_t)
  (suffix : list string) (i : Z) (b : DataFrame) :
  PySpark.tier left right merge_keys suffix i = Ok b ->
  exists f,
    rows b = map f (PySpark.join_pairs left right
                      (combine (py_prefix i (dict_keys merge_keys))
                               (py_prefix i (dict_values merge_keys)))).
Proof.
  unfold PySpark.tier, PySpark.join.
  set (on := combine _ _).
  destruct (PySpark.join_conditions left right on); cbn; [|discriminate].
  destruct on as [|k on'] eqn:Hon; [discriminate|]. cbn.
  intros H. apply pyspark_rename_conflicts_rows in H. rewrite H.
  unfold PySpark.withColumn, set_column.
  destruct (mem _ _); cbn; rewrite map_map; eexists; reflexivity.
Qed.

(** ** Combining the batches *)

Lemma pandas_concat_rows (objs : list DataFrame) (df : DataFrame) :
  Pandas.concat objs = Ok df ->
  rows df = flat_map rows objs
  \/ rows df
     = flat_map (fun b => map (Pandas.aligned_row objs (columns df) b)
                              (rows b))
                objs.
Proof.
  unfold Pandas.concat. destruct objs as [|df0 objs']; [discriminate|].
  destruct (forallb _ _).
  - intros H. injection H as <-. left. reflexivity.
  - destruct (forallb _ _); [|discriminate].
    intros H. injection H as <-. right. reflexivity.
Qed.

Lemma pyspark_unionByName_rows (a b c : DataFrame) :
  PySpark.unionByName a b = Ok c ->
  columns c = columns a
  /\ rows c = rows a ++ map (reindex (columns b) (columns a)) (rows b).
Proof.
  unfold PySpark.unionByName. destruct (_ && _); [|discriminate].
  intros H. injection H as <-. split; reflexivity.
Qed.

Lemma pyspark_union_all_rows (dfs : list DataFrame) (acc df : DataFrame) :
  PySpark.union_all acc dfs = Ok df ->
  columns df = columns acc
  /\ rows df
     = rows acc
       ++ flat_map (fun b => map (reindex (columns b) (columns acc)) (rows b))
                   dfs.
Proof.
  revert acc. induction dfs as [|d dfs IH]; cbn; intros acc H.
  - injection H as <-. split; [reflexivity | now rewrite app_nil_r].
  - destruct (PySpark.unionByName acc d) as [acc'|] eqn:Hu; cbn in H;
      [|discriminate].
    apply pyspark_unionByName_rows in Hu. destruct Hu as [Hc Hr].
    apply IH in H. destruct H as [Hc' Hr'].
    split; [congruence|].
    rewrite Hr', Hr, Hc, <- app_assoc. reflexivity.
Qed.

(** ** Argument checking *)





(** ** The score column *)

Lemma cell_at_cons_other (c c' : string) (cols : list string) (x : cell)
  (r : row) :
  String.eqb c c' = false ->
  cell_at (c' :: cols) (x :: r) c = cell_at cols r c.
Proof.
  intros H. unfold cell_at. cbn. rewrite H.
  destruct (col_index c cols); reflexivity.
Qed.

Lemma cell_at_overwrite (name : string) (v : cell) (cols : list string)
  (r : row) :
  mem name cols = true -> cell_at cols (overwrite name v cols r) name = v.
Proof.
  unfold mem. revert r. induction cols as [|c cols IH]; cbn; intros r H;
    [discriminate|].
  destruct (String.eqb name c) eqn:E.
  - unfold cell_at. cbn. rewrite E. cbn.
    rewrite String.eqb_sym, E. reflexivity.
  - rewrite cell_at_cons_other by assumption. apply IH. exact H.
Qed.

Lemma cell_at_pad_append (name : string) (v : cell) (cols : list string)
  (r : row) :
  mem name cols = false ->
  cell_at (cols ++ [name]) (pad cols r ++ [v]) name = v.
Proof.
  unfold mem. revert r. induction cols as [|c cols IH]; cbn; intros r H.
  - unfold cell_at. cbn. rewrite String.eqb_refl. reflexivity.
  - destruct (String.eqb name c) eqn:E; [discriminate|].
    rewrite cell_at_cons_other by assumption. apply IH. exact H.
Qed.

Lemma set_column_reads_back (name : string) (v : cell) (df : DataFrame)
  (r : row) :
  In r (rows (set_column name v df)) ->
  cell_at (columns (set_column name v df)) r name = v.
Proof.
  unfold set_column. destruct (mem name (columns df)) eqn:E; cbn;
    intros H; apply in_map_iff in H; destruct H as [r0 [<- _]].
  - now apply cell_at_overwrite.
  - now apply cell_at_pad_append.
Qed.

(** Every row of the pandas batch of tier [i] carries [merge_score = i]. *)
Lemma pandas_tier_score (left right : DataFrame) (merge_keys : merge_keys_t)
  (suffix : list string) (i : Z) (b : DataFrame) (r : row) :
  Pandas.tier left right merge_keys suffix i = Ok b ->
  In r (rows b) ->
  cell_at (columns b) r "merge_score" = Some (SInt i).
Proof.
  unfold Pandas.tier.
  destruct (Pandas.merge _ _ _ _) as [pm|]; cbn; [|discriminate].
  intros H. injection H as <-. apply set_column_reads_back.
Qed.

Lemma mem_In (c : string) (l : list string) : mem c l = true <-> In c l.
Proof.
  unfold mem. rewrite existsb_exists. split.
  - intros [x [Hx E]]. apply String.eqb_eq in E. now subst.
  - intros H. exists c. split; [assumption | apply String.eqb_refl].
Qed.

Lemma mem_app (c : string) (a b : list string) :
  mem c (a ++ b) = mem c a || mem c b.
Proof. unfold mem. apply existsb_app. Qed.

Lemma set_column_has_column (name : string) (v : cell) (df : DataFrame) :
  mem name (columns (set_column name v df)) = true.
Proof.
  unfold set_column. destruct (mem name (columns df)) eqn:E; cbn [columns].
  - exact E.
  - rewrite mem_app. cbn. rewrite String.eqb_refl. apply orb_true_r.
Qed.

(** Re-reading a row under another column order keeps what is read under
    each name of that order. *)
Lemma cell_at_reindex (from to : list string) (r : row) (c : string) :
  mem c to = true -> cell_at to (reindex from to r) c = cell_at from r c.
Proof.
  unfold reindex, mem. induction to as [|t to IH]; cbn; intros H;
    [discriminate|].
  destruct (String.eqb c t) eqn:E.
  - apply String.eqb_eq in E. subst t.
    unfold cell_at at 1. cbn. rewrite String.eqb_refl. reflexivity.
  - rewrite cell_at_cons_other by assumption. apply IH. exact H.
Qed.

Lemma string_list_eqb_eq (a b : list string) :
  string_list_eqb a b = true -> a = b.
Proof.
  unfold string_list_eqb. revert b.
  induction a as [|x a IH]; intros [|y b]; cbn; try discriminate;
    [reflexivity|].
  intros H. apply andb_true_iff in H. destruct H as [Hlen H].
  apply andb_true_iff in H. destruct H as [Hxy H].
  apply String.eqb_eq in Hxy. subst y. f_equal.
  apply IH. now rewrite Hlen, H.
Qed.

Lemma union_columns_step_mem (c : string) (objs : list DataFrame)
  (acc : list string) :
  mem c acc = true
  \/ (exists b, In b objs /\ mem c (columns b) = true) ->
  mem c (fold_left (fun acc df =>
                      acc ++ filter (fun c => negb (mem c acc)) (columns df))
                   objs acc) = true.
Proof.
  revert acc. induction objs as [|d objs IH]; cbn; intros acc H.
  - destruct H as [H|[b [[] _]]]. exact H.
  - apply IH. destruct (mem c acc) eqn:Hacc.
    + left. rewrite mem_app, Hacc. reflexivity.
    + destruct H as [H|[b [[<-|Hb] Hc]]]; [discriminate| |].
      * left. rewrite mem_app. apply orb_true_iff. right.
        apply mem_In. apply filter_In. split; [now apply mem_In|].
        now rewrite Hacc.
      * right. exists b. split; assumption.
Qed.

Lemma union_columns_mem (c : string) (objs : list DataFrame) (b : DataFrame) :
  In b objs -> mem c (columns b) = true ->
  mem c (Pandas.union_columns objs) = true.
Proof.
  intros Hb Hc. unfold Pandas.union_columns.
  apply union_columns_step_mem. right. exists b. split; assumption.
Qed.

Lemma Forall2_In_r {A B : Type} (P : A -> B -> Prop) (l : list A)
  (l' : list B) (b : B) :
  Forall2 P l l' -> In b l' -> exists a, In a l /\ P a b.
Proof.
  induction 1 as [|x y l l' Hxy _ IH]; intros Hin; [destruct Hin|].
  destruct Hin as [<-|Hin].
  - exists x. split; [now left | assumption].
  - destruct (IH Hin) as [a [Ha HP]]. exists a. split; [now right | exact HP].
Qed.

(** What [pd.concat] returns, with its columns. *)
Lemma pandas_concat_cases (objs : list DataFrame) (df : DataFrame) :
  Pandas.concat objs = Ok df ->
  ((forall b, In b objs -> columns b = columns df)
   /\ rows df = flat_map rows objs)
  \/ (columns df = Pandas.union_columns objs
      /\ rows df
         = flat_map (fun b => map (Pandas.aligned_row objs (columns df) b)
                                  (rows b))
                    objs).
Proof.
  unfold Pandas.concat. destruct objs as [|df0 objs']; [discriminate|].
  destruct (forallb _ _) eqn:Hsame.
  - intros H. injection H as <-. left. split; [|reflexivity].
    intros b Hb. rewrite forallb_forall in Hsame.
    apply string_list_eqb_eq. cbn. now apply Hsame.
  - clear Hsame. destruct (forallb _ _); [|discriminate].
    intros H. injection H as <-. right. split; reflexivity.
Qed.

Lemma cell_at_map (f : string -> cell) (cols : list string) (c : string) :
  mem c cols = true -> cell_at cols (map f cols) c = f c.
Proof.
  unfold mem. induction cols as [|t cols IH]; cbn; intros H; [discriminate|].
  destruct (String.eqb c t) eqn:E.
  - apply String.eqb_eq in E. subst t.
    unfold cell_at. cbn. rewrite String.eqb_refl. reflexivity.
  - rewrite cell_at_cons_other by assumption. apply IH. exact H.
Qed.


(** A column that every frame has is not upcast. *)
Lemma upcasts_present_everywhere (objs : list DataFrame) (c : string) :
  (forall b, In b objs -> mem c (columns b) = true) ->
  Pandas.upcasts objs c = false.
Proof.
  intros H. unfold Pandas.upcasts.
  destruct (existsb _ objs) eqn:E; [|reflexivity].
  apply existsb_exists in E. destruct E as [b [Hb Hc]].
  rewrite (H b Hb) in Hc. discriminate.
Qed.

Lemma pandas_tier_has_score (left right : DataFrame)
  (merge_keys : merge_keys_t) (suffix : list string) (i : Z) (b : DataFrame) :
  Pandas.tier left right merge_keys suffix i = Ok b ->
  mem "merge_score" (columns b) = true.
Proof.
  unfold Pandas.tier.
  destruct (Pandas.merge _ _ _ _) as [pm|]; cbn; [|discriminate].
  intros H. injection H as <-. apply set_column_has_column.
Qed.

(** In the pandas variant every returned row carries in [merge_score] the
    index of a tier the loop ran: an integer above [min_score] and at most
    [n]. *)
Theorem pandas_scored_merge_scores (left right : DataFrame)
  (merge_keys : merge_keys_t) (suffix : list string) (min_score : Z)
  (df : DataFrame) (r : row) :
  Pandas.scored_merge left right merge_keys suffix min_score = Ok df ->
  In r (rows df) ->
  exists i,
    min_score < i <= Z.of_nat (List.length merge_keys)
    /\ cell_at (columns df) r "merge_score" = Some (SInt i).
Proof.
  unfold Pandas.scored_merge.
  destruct (for_each _ _) as [batches|] eqn:Hloop; cbn; [|discriminate].
  apply for_each_Forall2 in Hloop. intros Hc Hr.
  apply pandas_concat_cases in Hc.
  destruct Hc as [[Hcols Hrows]|[Hcols Hrows]]; rewrite Hrows in Hr;
    apply in_flat_map in Hr; destruct Hr as [b [Hb Hr]];
    destruct (Forall2_In_r _ _ _ _ Hloop Hb) as [i [Hi Ht]];
    exists i; (split; [now apply py_range_down_In in Hi|]).
  - rewrite <- (Hcols b Hb). eapply pandas_tier_score; eassumption.
  - apply in_map_iff in Hr. destruct Hr as [r0 [<- Hr0]].
    unfold Pandas.aligned_row. rewrite cell_at_map.
    + rewrite upcasts_present_everywhere.
      * eapply pandas_tier_score; eassumption.
      * intros b0 Hb0.
        destruct (Forall2_In_r _ _ _ _ Hloop Hb0) as [j [_ Hj]].
        eapply pandas_tier_has_score; eassumption.
    + rewrite Hcols. apply (union_columns_mem _ _ b Hb).
      eapply pandas_tier_has_score; eassumption.
Qed.

Lemma pandas_scored_merge_scores_witness :
  let df :=
    mkDF ["id"; "code"; "value"; "category"; "merge_score"; "codeleft";
          "coderigth"]
         [ [Some (SInt 1); Some (SStr "A"); Some (SInt 100); Some (SStr "X");
            Some (SInt 2); None; None];
           [Some (SInt 1); None; Some (SInt 100); Some (SStr "X");
            Some (SInt 1); Some (SStr "A"); Some (SStr "A")];
           [Some (SInt 2); None; Some (SInt 200); Some (SStr "Y");
            Some (SInt 1); Some (SStr "B"); Some (SStr "C")] ] in
  let r := [Some (SInt 2); None; Some (SInt 200); Some (SStr "Y");
            Some (SInt 1); Some (SStr "B"); Some (SStr "C")] in
  Pandas.scored_merge df1 df2 id_code ["left"; "rigth"] 0 = Ok df
  /\ In r (rows df)
  /\ exists i,
       0 < i <= Z.of_nat (List.length id_code)
       /\ cell_at (columns df) r "merge_score" = Some (SInt i).
Proof.
  intros df r.
  assert (Hrun : Pandas.scored_merge df1 df2 id_code ["left"; "rigth"] 0
                 = Ok df) by (vm_compute; reflexivity).
  assert (Hr : In r (rows df)) by (cbn; auto).
  split; [exact Hrun|]. split; [exact Hr|].
  exact (pandas_scored_merge_scores df1 df2 id_code ["left"; "rigth"] 0
           df r Hrun Hr).
Defined.

(** ** The renaming loop of the PySpark variant *)

Lemma withColumnRenamed_absent (existing new : string) (df : DataFrame) :
  mem existing (columns df) = false ->
  PySpark.withColumnRenamed existing new df = df.
Proof.
  unfold PySpark.withColumnRenamed, mem. destruct df as [cols rs]. cbn.
  intros H. f_equal. induction cols as [|c cols IH]; cbn in *; [reflexivity|].
  apply orb_false_iff in H. destruct H as [Hc H].
  rewrite String.eqb_sym, Hc. f_equal. now apply IH.
Qed.

Lemma pyspark_rename_conflicts_noop (cols cl cr rest : list string)
  (s0 : string) (pm : DataFrame) :
  forallb (fun c => negb (mem (String.append c s0) (columns pm))) cols = true ->
  PySpark.rename_conflicts cols cl cr (s0 :: rest) pm = Ok pm.
Proof.
  induction cols as [|c cols IH]; cbn; intros H; [reflexivity|].
  apply andb_true_iff in H. destruct H as [Hc H].
  apply negb_true_iff in Hc.
  destruct (negb (mem c cl) && negb (mem c cr)).
  - rewrite withColumnRenamed_absent by assumption. now apply IH.
  - now apply IH.
Qed.

(** The PySpark loop over the common columns renames [col + suffix[0]] to
    [col]. When no column of the inputs has such a name, and none is called
    [merge_score], a tier's batch has the columns of [left], those of
    [right] and [merge_score], all under their own names: nothing is
    suffixed. *)
Theorem pyspark_tier_keeps_column_names (left right : DataFrame)
  (merge_keys : merge_keys_t) (s0 : string) (rest : list string) (i : Z)
  (b : DataFrame) :
  forallb (fun c => negb (mem (String.append c s0)
                            (columns left ++ columns right ++ ["merge_score"])))
          (PySpark.common_columns left right) = true ->
  mem "merge_score" (columns left ++ columns right) = false ->
  PySpark.tier left right merge_keys (s0 :: rest) i = Ok b ->
  columns b = columns left ++ columns right ++ ["merge_score"].
Proof.
  intros Hnames Hms. unfold PySpark.tier, PySpark.join.
  set (on := combine _ _).
  destruct (PySpark.join_conditions left right on); cbn; [|discriminate].
  destruct on as [|k on']; [discriminate|]. cbn.
  unfold PySpark.withColumn, set_column. cbn [columns]. rewrite Hms.
  rewrite pyspark_rename_conflicts_noop.
  - intros H. injection H as <-. cbn. now rewrite <- app_assoc.
  - cbn [columns]. rewrite <- app_assoc. exact Hnames.
Qed.

Lemma pyspark_tier_keeps_column_names_witness :
  exists b,
    PySpark.tier left_v right_v [("id", "id")] ["_left"; "_right"] 1 = Ok b
    /\ columns b = ["id"; "v"; "id"; "v"; "merge_score"].
Proof.
  destruct (PySpark.tier left_v right_v [("id", "id")] ["_left"; "_right"] 1)
    as [b|] eqn:Ht; [|vm_compute in Ht; discriminate].
  exists b. split; [reflexivity|].
  apply (pyspark_tier_keeps_column_names left_v right_v [("id", "id")]
           "_left" ["_right"] 1 b); [reflexivity | reflexivity | exact Ht].
Defined.

Lemma pyspark_rename_conflicts_suffix_tail (cols cl cr t1 t2 : list string)
  (s0 : string) (pm : DataFrame) :
  PySpark.rename_conflicts cols cl cr (s0 :: t1) pm
  = PySpark.rename_conflicts cols cl cr (s0 :: t2) pm.
Proof.
  revert pm. induction cols as [|c cols IH]; cbn; intros pm; [reflexivity|].
  destruct (negb (mem c cl) && negb (mem c cr)); apply IH.
Qed.

Lemma for_each_ext {A B : Type} (f g : A -> result B) (l : list A) :
  (forall a, f a = g a) -> for_each f l = for_each g l.
Proof.
  intros H. induction l as [|a l IH]; cbn; [reflexivity|].
  now rewrite H, IH.
Qed.

(** The PySpark variant reads [suffix[0]] only: the right suffix, and
    anything after it, has no effect on the outcome. *)
Theorem pyspark_scored_merge_ignores_right_suffix (left right : DataFrame)
  (merge_keys : merge_keys_t) (s0 : string) (t1 t2 : list string)
  (min_score : Z) :
  PySpark.scored_merge left right merge_keys (s0 :: t1) min_score
  = PySpark.scored_merge left right merge_keys (s0 :: t2) min_score.
Proof.
  unfold PySpark.scored_merge.
  rewrite (for_each_ext (PySpark.tier left right merge_keys (s0 :: t1))
             (PySpark.tier left right merge_keys (s0 :: t2))); [reflexivity|].
  intros i. unfold PySpark.tier.
  destruct (PySpark.join_conditions _ _ _); cbn; [|reflexivity].
  destruct (PySpark.join _ _ _); cbn; [|reflexivity].
  apply pyspark_rename_conflicts_suffix_tail.
Qed.

(** Under the same conditions a PySpark batch is the join with the score
    column appended. *)
Lemma pyspark_tier_unrenamed (left right : DataFrame)
  (merge_keys : merge_keys_t) (s0 : string) (rest : list string) (i : Z)
  (b : DataFrame) :
  forallb (fun c => negb (mem (String.append c s0)
                            (columns left ++ columns right ++ ["merge_score"])))
          (PySpark.common_columns left right) = true ->
  mem "merge_score" (columns left ++ columns right) = false ->
  PySpark.tier left right merge_keys (s0 :: rest) i = Ok b ->
  exists joined, b = set_column "merge_score" (Some (SInt i)) joined.
Proof.
  intros Hnames Hms. unfold PySpark.tier, PySpark.join.
  set (on := combine _ _).
  destruct (PySpark.join_conditions left right on); cbn; [|discriminate].
  destruct on as [|k on']; [discriminate|]. cbn.
  set (joined := mkDF _ _). unfold PySpark.withColumn.
  rewrite pyspark_rename_conflicts_noop.
  - intros H. injection H as <-. now exists joined.
  - unfold set_column. subst joined. cbn [columns]. rewrite Hms.
    cbn [columns]. rewrite <- app_assoc. exact Hnames.
Qed.

(** In the PySpark variant, when the renaming loop finds nothing to rename
    and no input column is called [merge_score], every returned row carries
    in [merge_score] the index of a tier the loop ran: an integer from
    [min_score] to [n]. *)
Theorem pyspark_scored_merge_scores (left right : DataFrame)
  (merge_keys : merge_keys_t) (s0 : string) (rest : list string)
  (min_score : Z) (df : DataFrame) (r : row) :
  forallb (fun c => negb (mem (String.append c s0)
                            (columns left ++ columns right ++ ["merge_score"])))
          (PySpark.common_columns left right) = true ->
  mem "merge_score" (columns left ++ columns right) = false ->
  PySpark.scored_merge left right merge_keys (s0 :: rest) min_score = Ok df ->
  In r (rows df) ->
  exists i,
    min_score <= i <= Z.of_nat (List.length merge_keys)
    /\ cell_at (columns df) r "merge_score" = Some (SInt i).
Proof.
  intros Hnames Hms. unfold PySpark.scored_merge.
  destruct (for_each _ _) as [batches|] eqn:Hloop; cbn; [|discriminate].
  apply for_each_Forall2 in Hloop.
  assert (Hscore : forall b r0, In b batches -> In r0 (rows b) ->
            mem "merge_score" (columns b) = true
            /\ exists i, min_score <= i <= Z.of_nat (List.length merge_keys)
                 /\ cell_at (columns b) r0 "merge_score" = Some (SInt i)).
  { intros b r0 Hb Hr0.
    destruct (Forall2_In_r _ _ _ _ Hloop Hb) as [i [Hi Ht]].
    apply pyspark_tiers_inclusive in Hi.
    destruct (pyspark_tier_unrenamed _ _ _ _ _ _ _ Hnames Hms Ht)
      as [joined ->].
    split; [apply set_column_has_column|].
    exists i. split; [exact Hi | now apply set_column_reads_back]. }
  destruct batches as [|first others]; intros H Hr.
  - injection H as <-. destruct Hr.
  - apply pyspark_union_all_rows in H. destruct H as [Hcols Hrows].
    rewrite Hrows in Hr. rewrite Hcols. apply in_app_or in Hr.
    destruct Hr as [Hr|Hr].
    + apply (Hscore first r); [now left | exact Hr].
    + apply in_flat_map in Hr. destruct Hr as [b [Hb Hr]].
      apply in_map_iff in Hr. destruct Hr as [r0 [<- Hr0]].
      destruct (Hscore b r0 (or_intror Hb) Hr0) as [_ Hi].
      rewrite cell_at_reindex; [exact Hi|].
      destruct (rows first) as [|r1 rs] eqn:Hfirst.
      * clear Hfirst.
        destruct (Forall2_In_r _ _ _ _ Hloop (or_introl eq_refl))
          as [j [_ Ht]].
        destruct (pyspark_tier_unrenamed _ _ _ _ _ _ _ Hnames Hms Ht)
          as [joined ->].
        apply set_column_has_column.
      * apply (Hscore first r1); [now left | rewrite Hfirst; now left].
Qed.

Lemma pyspark_scored_merge_scores_witness :
  let r := [Some (SInt 2); Some (SStr "B"); Some (SInt 200);
            Some (SInt 2); Some (SStr "C"); Some (SStr "Y"); Some (SInt 1)] in
  exists df,
    PySpark.scored_merge df1_l df2_r lid_rid ["_left"; "_right"] 1 = Ok df
    /\ In r (rows df)
    /\ exists i,
         1 <= i <= Z.of_nat (List.length lid_rid)
         /\ cell_at (columns df) r "merge_score" = Some (SInt i).
Proof.
  intros r.
  destruct (PySpark.scored_merge df1_l df2_r lid_rid ["_left"; "_right"] 1)
    as [df|] eqn:Hrun; [|vm_compute in Hrun; discriminate].
  assert (Hr : In r (rows df)).
  { vm_compute in Hrun. injection Hrun as <-. cbn. auto. }
  exists df. split; [reflexivity|]. split; [exact Hr|].
  apply (pyspark_scored_merge_scores df1_l df2_r lid_rid "_left" ["_right"] 1
           df r); [reflexivity | reflexivity | exact Hrun | exact Hr].
Defined.

(** ** Duplicate column names and [unionByName] *)

Lemma duplicated_from_spec (seen l : list string) :
  existsb (fun b => b) (duplicated_from seen l) = false ->
  NoDup l /\ forall x, In x l -> ~ In x seen.
Proof.
  revert seen. induction l as [|c l IH]; cbn; intros seen H.
  - split; [constructor | tauto].
  - apply orb_false_iff in H. destruct H as [Hc H].
    destruct (IH (c :: seen) H) as [Hnd Hfresh]. split.
    + constructor; [|exact Hnd].
      intros Hin. apply (Hfresh c Hin). now left.
    + intros x [<-|Hx] Hseen.
      * apply mem_In in Hseen. congruence.
      * apply (Hfresh x Hx). now right.
Qed.

Lemma is_unique_NoDup (l : list string) : is_unique l = true -> NoDup l.
Proof.
  unfold is_unique, duplicated. intros H. apply negb_true_iff in H.
  now apply duplicated_from_spec in H.
Qed.

Lemma NoDup_app_shared {A : Type} (a b : list A) (x : A) :
  In x a -> In x b -> ~ NoDup (a ++ b).
Proof.
  intros Ha Hb Hnd. induction a as [|y a IH]; [destruct Ha|].
  cbn in Hnd. inversion Hnd as [|? ? Hy Hnd']; subst.
  destruct Ha as [->|Ha].
  - apply Hy. apply in_or_app. now right.
  - now apply IH.
Qed.

Lemma set_column_NoDup (name : string) (v : cell) (df : DataFrame) :
  NoDup (columns (set_column name v df)) -> NoDup (columns df).
Proof.
  unfold set_column. destruct (mem name (columns df)); cbn [columns].
  - tauto.
  - apply NoDup_app_remove_r.
Qed.

Lemma pyspark_rename_conflicts_NoDup (cols cl cr suffix : list string)
  (pm pm' : DataFrame) :
  PySpark.rename_conflicts cols cl cr suffix pm = Ok pm' ->
  NoDup (columns pm') -> NoDup (columns pm).
Proof.
  revert pm. induction cols as [|c cols IH]; cbn; intros pm H Hnd.
  - now injection H as <-.
  - destruct (negb (mem c cl) && negb (mem c cr)).
    + destruct suffix as [|s0 ?]; [discriminate|].
      apply IH in H; [|exact Hnd]. cbn in H.
      now apply NoDup_map_inv in H.
    + now apply IH.
Qed.

(** A column name that [left] and [right] share occurs twice in every
    PySpark batch. *)
Lemma pyspark_tier_shared_column (left right : DataFrame)
  (merge_keys : merge_keys_t) (suffix : list string) (i : Z) (b : DataFrame)
  (c : string) :
  In c (columns left) -> In c (columns right) ->
  PySpark.tier left right merge_keys suffix i = Ok b ->
  is_unique (columns b) = false.
Proof.
  intros Hl Hr. unfold PySpark.tier, PySpark.join.
  set (on := combine _ _).
  destruct (PySpark.join_conditions left right on); cbn; [|discriminate].
  destruct on as [|k on']; [discriminate|]. cbn.
  intros H. destruct (is_unique (columns b)) eqn:E; [|reflexivity].
  exfalso. apply is_unique_NoDup in E.
  apply (pyspark_rename_conflicts_NoDup _ _ _ _ _ _ H) in E.
  apply set_column_NoDup in E. cbn in E.
  exact (NoDup_app_shared _ _ c Hl Hr E).
Qed.

(** When [left] and [right] share a column name (the same key name on both
    sides, as in the docstring, is enough) and the loop has two tiers or
    more to run, the PySpark variant never returns a frame: if every tier
    succeeds, the first [unionByName] meets duplicate column names and
    raises [AnalysisException]. *)
Theorem pyspark_scored_merge_shared_column_raises (left right : DataFrame)
  (merge_keys : merge_keys_t) (suffix : list string) (min_score : Z)
  (c : string) :
  In c (columns left) -> In c (columns right) ->
  min_score < Z.of_nat (List.length merge_keys) ->
  exists e,
    PySpark.scored_merge left right merge_keys suffix min_score = Raise e
    /\ ((exists batches,
            for_each (PySpark.tier left right merge_keys suffix)
              (py_range_down (Z.of_nat (List.length merge_keys))
                             (min_score - 1)) = Ok batches) ->
        e = AnalysisException).
Proof.
  intros Hl Hr Hlt. unfold PySpark.scored_merge.
  set (n := Z.of_nat (List.length merge_keys)) in *.
  destruct (for_each _ _) as [batches|e] eqn:Hloop; cbn.
  - apply for_each_Forall2 in Hloop.
    rewrite (py_range_down_cons n) in Hloop by lia.
    rewrite (py_range_down_cons (n - 1)) in Hloop by lia.
    inversion Hloop as [|i0 b0 l0 bs0 Ht0 Hrest]; subst.
    inversion Hrest as [|i1 b1 l1 bs1 Ht1 Hrest']; subst.
    exists AnalysisException. split; [|reflexivity].
    cbn. unfold PySpark.unionByName.
    rewrite (pyspark_tier_shared_column _ _ _ _ _ _ c Hl Hr Ht0).
    reflexivity.
  - exists e. split; [reflexivity|]. intros [batches Hb]. discriminate.
Qed.

Lemma pyspark_scored_merge_shared_column_raises_witness :
  In "id" (columns df1) /\ In "id" (columns df2)
  /\ 1 < Z.of_nat (List.length id_code)
  /\ PySpark.scored_merge df1 df2 id_code ["_left"; "_right"] 1
     = Raise AnalysisException.
Proof.
  assert (Hl : In "id" (columns df1)) by (cbn; auto).
  assert (Hr : In "id" (columns df2)) by (cbn; auto).
  assert (Hlt : 1 < Z.of_nat (List.length id_code)) by (cbn; lia).
  split; [exact Hl|]. split; [exact Hr|]. split; [exact Hlt|].
  destruct (pyspark_scored_merge_shared_column_raises
              df1 df2 id_code ["_left"; "_right"] 1 "id" Hl Hr Hlt)
    as [e [Hrun He]].
  rewrite Hrun. f_equal. apply He.
  eexists. vm_compute. reflexivity.
Defined.

(** ** Batch sizes *)

Lemma filter_length_le {A : Type} (f g : A -> bool) (l : list A) :
  (forall x, f x = true -> g x = true) ->
  (List.length (filter f l) <= List.length (filter g l))%nat.
Proof.
  intros H. induction l as [|x l IH]; cbn; [lia|].
  destruct (f x) eqn:E.
  - rewrite (H x E). cbn. lia.
  - destruct (g x); cbn; lia.
Qed.

(** A lower tier never yields fewer rows than the tier above it: the batch
    of tier [i] has at least as many rows as the batch of tier [i + 1], in
    both variants. Rows matched at a higher tier are produced again, not
    removed. *)
Theorem lower_tier_batch_is_no_smaller (left right : DataFrame)
  (merge_keys : merge_keys_t) (suffix : list string) (i : Z) :
  0 <= i ->
  (forall b b',
      Pandas.tier left right merge_keys suffix i = Ok b ->
      Pandas.tier left right merge_keys suffix (i + 1) = Ok b' ->
      (List.length (rows b') <= List.length (rows b))%nat)
  /\ (forall b b',
         PySpark.tier left right merge_keys suffix i = Ok b ->
         PySpark.tier left right merge_keys suffix (i + 1) = Ok b' ->
         (List.length (rows b') <= List.length (rows b))%nat).
Proof.
  intros Hi. pose proof (tier_keys_incl merge_keys i Hi) as Hincl.
  split; intros b b' Hb Hb'.
  - apply pandas_tier_rows in Hb. apply pandas_tier_rows in Hb'.
    destruct Hb as [f ->]. destruct Hb' as [f' ->].
    rewrite !length_map. unfold Pandas.merge_pairs.
    apply filter_length_le. intros p. unfold Pandas.keys_agree.
    now apply forallb_incl.
  - apply pyspark_tier_rows in Hb. apply pyspark_tier_rows in Hb'.
    destruct Hb as [f ->]. destruct Hb' as [f' ->].
    rewrite !length_map. unfold PySpark.join_pairs.
    apply filter_length_le. intros p. unfold PySpark.keys_agree.
    now apply forallb_incl.
Qed.

Lemma lower_tier_batch_is_no_smaller_witness :
  0 <= 1
  /\ (exists b b',
        Pandas.tier df1 df2 id_code ["left"; "rigth"] 1 = Ok b
        /\ Pandas.tier df1 df2 id_code ["left"; "rigth"] 2 = Ok b'
        /\ (List.length (rows b') <= List.length (rows b))%nat)
  /\ (exists b b',
        PySpark.tier df1 df2 id_code ["_left"; "_right"] 1 = Ok b
        /\ PySpark.tier df1 df2 id_code ["_left"; "_right"] 2 = Ok b'
        /\ (List.length (rows b') <= List.length (rows b))%nat).
Proof.
  assert (Hi : 0 <= 1) by lia.
  split; [exact Hi|]. split.
  - destruct (Pandas.tier df1 df2 id_code ["left"; "rigth"] 1) as [b|] eqn:H1;
      [|vm_compute in H1; discriminate].
    destruct (Pandas.tier df1 df2 id_code ["left"; "rigth"] 2) as [b'|] eqn:H2;
      [|vm_compute in H2; discriminate].
    exists b, b'. split; [reflexivity|]. split; [reflexivity|].
    destruct (lower_tier_batch_is_no_smaller df1 df2 id_code
                ["left"; "rigth"] 1 Hi) as [Hp _].
    apply Hp; [exact H1 | exact H2].
  - destruct (PySpark.tier df1 df2 id_code ["_left"; "_right"] 1) as [b|]
      eqn:H1; [|vm_compute in H1; discriminate].
    destruct (PySpark.tier df1 df2 id_code ["_left"; "_right"] 2) as [b'|]
      eqn:H2; [|vm_compute in H2; discriminate].
    exists b, b'. split; [reflexivity|]. split; [reflexivity|].
    destruct (lower_tier_batch_is_no_smaller df1 df2 id_code
                ["_left"; "_right"] 1 Hi) as [_ Hs].
    apply Hs; [exact H1 | exact H2].
Defined.

(** ** Inputs without rows *)

Lemma list_prod_nil_r {A B : Type} (l : list A) :
  list_prod l (@nil B) = [].
Proof. induction l as [|a l IH]; cbn; [reflexivity | exact IH]. Qed.

Lemma list_prod_empty {A B : Type} (l : list A) (l' : list B) :
  l = [] \/ l' = [] -> list_prod l l' = [].
Proof. intros [->| ->]; [reflexivity | apply list_prod_nil_r]. Qed.

Lemma flat_map_all_nil {A B : Type} (f : A -> list B) (l : list A) :
  (forall a, In a l -> f a = []) -> flat_map f l = [].
Proof.
  intros H. induction l as [|a l IH]; cbn; [reflexivity|].
  rewrite (H a (or_introl eq_refl)). apply IH.
  intros a' Ha'. apply H. now right.
Qed.

(** When [left] or [right] has no rows, a frame returned by either variant
    has no rows. *)
Theorem scored_merge_of_empty_input_has_no_rows (left right : DataFrame)
  (merge_keys : merge_keys_t) (suffix : list string) (min_score : Z) :
  rows left = [] \/ rows right = [] ->
  (forall df,
      Pandas.scored_merge left right merge_keys suffix min_score = Ok df ->
      rows df = [])
  /\ (forall df,
         PySpark.scored_merge left right merge_keys suffix min_score = Ok df ->
         rows df = []).
Proof.
  intros Hempty. apply list_prod_empty in Hempty. split; intros df.
  - unfold Pandas.scored_merge.
    destruct (for_each _ _) as [batches|] eqn:Hloop; cbn; [|discriminate].
    apply for_each_Forall2 in Hloop. intros Hc.
    assert (Hb : forall b, In b batches -> rows b = []).
    { intros b Hb. destruct (Forall2_In_r _ _ _ _ Hloop Hb) as [i [_ Ht]].
      apply pandas_tier_rows in Ht. destruct Ht as [f ->].
      unfold Pandas.merge_pairs. now rewrite Hempty. }
    apply pandas_concat_rows in Hc. destruct Hc as [-> | ->];
      apply flat_map_all_nil; intros b Hin; now rewrite (Hb b Hin).
  - unfold PySpark.scored_merge.
    destruct (for_each _ _) as [batches|] eqn:Hloop; cbn; [|discriminate].
    apply for_each_Forall2 in Hloop.
    assert (Hb : forall b, In b batches -> rows b = []).
    { intros b Hb. destruct (Forall2_In_r _ _ _ _ Hloop Hb) as [i [_ Ht]].
      apply pyspark_tier_rows in Ht. destruct Ht as [f ->].
      unfold PySpark.join_pairs. now rewrite Hempty. }
    destruct batches as [|first others]; intros H.
    + now injection H as <-.
    + apply pyspark_union_all_rows in H. destruct H as [_ ->].
      rewrite (Hb first (or_introl eq_refl)). cbn.
      apply flat_map_all_nil. intros b Hin.
      now rewrite (Hb b (or_intror Hin)).
Qed.

Lemma scored_merge_of_empty_input_has_no_rows_witness :
  (rows empty_left = [] \/ rows df2 = [])
  /\ (exists df,
        Pandas.scored_merge empty_left df2 [("id", "id")]
          ["left"; "rigth"] 0 = Ok df
        /\ rows df = [])
  /\ (exists df,
        PySpark.scored_merge empty_left df2 [("id", "id")]
          ["_left"; "_right"] 1 = Ok df
        /\ rows df = []).
Proof.
  assert (He : rows empty_left = [] \/ rows df2 = []) by (left; reflexivity).
  split; [exact He|]. split.
  - destruct (Pandas.scored_merge empty_left df2 [("id", "id")]
                ["left"; "rigth"] 0)
      as [df|] eqn:Hrun; [|vm_compute in Hrun; discriminate].
    exists df. split; [reflexivity|].
    destruct (scored_merge_of_empty_input_has_no_rows empty_left df2
                [("id", "id")] ["left"; "rigth"] 0 He) as [Hp _].
    now apply Hp.
  - destruct (PySpark.scored_merge empty_left df2 [("id", "id")]
                ["_left"; "_right"] 1)
      as [df|] eqn:Hrun; [|vm_compute in Hrun; discriminate].
    exists df. split; [reflexivity|].
    destruct (scored_merge_of_empty_input_has_no_rows empty_left df2
                [("id", "id")] ["_left"; "_right"] 1 He) as [_ Hs].
    now apply Hs.
Defined.

(** ** Thresholds at the ends of the range *)

Lemma for_each_raises_at {A B : Type} (body : A -> result B) (l : list A)
  (a : A) :
  In a l -> (exists e, body a = Raise e) ->
  exists e, for_each body l = Raise e.
Proof.
  intros Hin [e He]. induction l as [|x l IH]; [destruct Hin|]. cbn.
  destruct (body x) as [b|e'] eqn:Hx; cbn; [|now exists e'].
  destruct Hin as [->|Hin]; [congruence|].
  destruct (IH Hin) as [e'' ->]. cbn. now exists e''.
Qed.

(** A threshold low enough for the loop to reach tier 0 makes the call
    raise: the tier-0 join has no key pair, which both engines reject. The
    PySpark loop reaches tier 0 when [min_score <= 0], the pandas loop when
    [min_score < 0]. *)
Theorem scored_merge_reaching_tier_zero_raises (left right : DataFrame)
  (merge_keys : merge_keys_t) (suffix : list string) (min_score : Z) :
  (min_score <= 0 ->
   exists e,
     PySpark.scored_merge left right merge_keys suffix min_score = Raise e)
  /\ (min_score < 0 ->
      exists e,
        Pandas.scored_merge left right merge_keys suffix min_score = Raise e).
Proof.
  split; intros H.
  - unfold PySpark.scored_merge.
    destruct (for_each_raises_at (PySpark.tier left right merge_keys suffix)
                (py_range_down (Z.of_nat (List.length merge_keys))
                               (min_score - 1)) 0) as [e He].
    + apply py_range_down_In. lia.
    + exists IndexError. reflexivity.
    + exists e. now rewrite He.
  - unfold Pandas.scored_merge.
    destruct (for_each_raises_at (Pandas.tier left right merge_keys suffix)
                (py_range_down (Z.of_nat (List.length merge_keys)) min_score)
                0) as [e He].
    + apply py_range_down_In. lia.
    + exists IndexError. reflexivity.
    + exists e. now rewrite He.
Qed.

Lemma scored_merge_reaching_tier_zero_raises_witness :
  0 <= 0 /\ -1 < 0
  /\ PySpark.scored_merge df1_l df2_r lid_rid ["_left"; "_right"] 0
     = Raise IndexError
  /\ Pandas.scored_merge df1_l df2_r lid_rid ["_left"; "_right"] (-1)
     = Raise IndexError.
Proof.
  split; [lia|]. split; [lia|]. split.
  - destruct (scored_merge_reaching_tier_zero_raises df1_l df2_r lid_rid
                ["_left"; "_right"] 0) as [Hs _].
    destruct (Hs ltac:(lia)) as [e He]. rewrite He.
    vm_compute in He. exact (eq_sym He).
  - destruct (scored_merge_reaching_tier_zero_raises df1_l df2_r lid_rid
                ["_left"; "_right"] (-1)) as [_ Hp].
    destruct (Hp ltac:(lia)) as [e He]. rewrite He.
    vm_compute in He. exact (eq_sym He).
Defined.

Lemma string_list_eqb_refl (a : list string) : string_list_eqb a a = true.
Proof.
  unfold string_list_eqb. rewrite Nat.eqb_refl. cbn.
  induction a as [|x a IH]; cbn; [reflexivity|].
  now rewrite String.eqb_refl.
Qed.

(** With [min_score = n - 1] the pandas variant runs tier [n] alone and
    returns that batch: the inner join on all key pairs, scored [n]. *)
Theorem pandas_scored_merge_single_tier (left right : DataFrame)
  (merge_keys : merge_keys_t) (suffix : list string) :
  Pandas.scored_merge left right merge_keys suffix
    (Z.of_nat (List.length merge_keys) - 1)
  = Pandas.tier left right merge_keys suffix
      (Z.of_nat (List.length merge_keys)).
Proof.
  unfold Pandas.scored_merge.
  rewrite py_range_down_cons by lia.
  rewrite py_range_down_nil by lia. cbn.
  destruct (Pandas.tier _ _ _ _ _) as [b|]; cbn; [|reflexivity].
  unfold Pandas.concat. cbn. rewrite string_list_eqb_refl. cbn.
  rewrite app_nil_r. now destruct b.
Qed.

Lemma pyspark_null_key_never_matches_witness :
  let p := ([None; Some (SInt 1); Some (SInt 10)],
            [None; Some (SInt 1); Some (SInt 20)]) in
  In ("k1", "k1") k1_k2
  /\ cell_at (columns null_left) (fst p) "k1" = None
  /\ ~ In p (PySpark.join_pairs null_left null_right k1_k2).
Proof.
  intros p.
  assert (Hk : In ("k1", "k1") k1_k2) by (left; reflexivity).
  assert (Hnull : cell_at (columns null_left) (fst p) "k1" = None)
    by reflexivity.
  split; [exact Hk|]. split; [exact Hnull|].
  exact (pyspark_null_key_never_matches null_left null_right k1_k2 p
           ("k1", "k1") Hk (or_introl Hnull)).
Defined.

(** ** The result as the batches in descending order *)




















(** An integer column that one batch has and another lacks comes back as
    floats: tier 2 has the key column [v], tier 1 has [v_left] and
    [v_right] instead. *)
Example pandas_concat_upcasts_integers :
  Pandas.scored_merge left_v right_v_same [("id", "id"); ("v", "v")]
    ["_left"; "_right"] 0
  = Ok (mkDF ["id"; "v"; "merge_score"; "v_left"; "v_right"]
          [ [Some (SInt 1); Some (SFloat 10); Some (SInt 2); None; None];
            [Some (SInt 1); None; Some (SInt 1); Some (SFloat 10);
             Some (SFloat 10)] ]).
Proof. vm_compute. reflexivity. Qed.

(** ** No validation of the arguments *)






